(** * WelcomeDialog.vue: the controlled-visibility contract

    A shallow embedding of [src/components/WelcomeDialog.vue]: the
    [<script setup>] block (props, emits, the computed [visible] and the
    two handlers) and the [<template>] that wires them to the
    [el-dialog] host surface. *)

From Stdlib Require Import Bool PeanoNat List String.
Import ListNotations.
Local Open Scope string_scope.
Local Open Scope list_scope.

(** ** The component's script *)

Module WelcomeDialog.

(** [defineProps<{ modelValue: boolean }>()] *)
Record Props : Type := mkProps { modelValue : bool }.

(** [defineEmits<{ 'update:modelValue': [value: boolean] }>()]:
    one event name, one argument. *)
Inductive Emit : Type :=
| update_modelValue (value : bool).

Definition payload (e : Emit) : bool :=
  match e with update_modelValue value => value end.

(** What a component instance holds at run time.  The script declares
    no [ref] and no [reactive]: there are the props handed in by the
    owner and the outbound [emit] channel, recorded here as the list
    of events sent so far, oldest first. *)
Record Instance : Type := mkInstance {
  props : Props;
  emitted : list Emit
}.

(** Script code runs against the instance: a state monad over it. *)
Definition Setup (A : Type) : Type := Instance -> A * Instance.

Definition ret {A} (a : A) : Setup A := fun i => (a, i).

Definition bind {A B} (m : Setup A) (k : A -> Setup B) : Setup B :=
  fun i => let (a, i') := m i in k a i'.

Notation "x <- m ;; k" := (bind m (fun x => k))
  (at level 61, m at next level, right associativity).

(** [props.modelValue] read inside a function of the script. *)
Definition read_props : Setup Props := fun i => (props i, i).

(** [emit('update:modelValue', v)]. *)
Definition emit (e : Emit) : Setup unit :=
  fun i => (tt, {| props := props i; emitted := emitted i ++ [e] |}).

(** A writable [computed({ get, set })]. *)
Record Computed (A : Type) : Type := mkComputed {
  get : Setup A;
  set : A -> Setup unit
}.
Arguments get {A} _.
Arguments set {A} _ _.

(** [const visible = computed({
       get: () => props.modelValue,
       set: (val) => emit('update:modelValue', val) })] *)
Definition visible : Computed bool := {|
  get := p <- read_props ;; ret (modelValue p);
  set := fun val => emit (update_modelValue val)
|}.

(** [function handleConfirm() { emit('update:modelValue', false) }] *)
Definition handleConfirm : Setup unit := emit (update_modelValue false).

(** [function handleClosed() { emit('update:modelValue', false) }] *)
Definition handleClosed : Setup unit := emit (update_modelValue false).

(** Final instance and returned value of a run. *)
Definition exec {A} (m : Setup A) (i : Instance) : Instance := snd (m i).
Definition eval {A} (m : Setup A) (i : Instance) : A := fst (m i).

(** *** The template

    The three places where the template hands script code to the host:
    [v-model="visible"] (the host writes through [visible.set]),
    [@click="handleConfirm"] and [@closed="handleClosed"]. *)
Inductive Trigger : Type :=
| MirrorWrite (val : bool)
| Confirm
| Closed.

Definition dispatch (t : Trigger) : Setup unit :=
  match t with
  | MirrorWrite val => set visible val
  | Confirm => handleConfirm
  | Closed => handleClosed
  end.

(** Markup inside the dialog's default slot. *)
#[local] Set Warnings "-register-all".
Inductive VNode : Type :=
| El (tag class : string) (children : list VNode)
| Txt (s : string)
| ElIcon (class : string) (size : option nat) (icon : string)
| Img (src alt class : string)
| ElButton (type size class : string) (onClick : Trigger)
           (children : list VNode).

Definition div := El "div".
Definition span := El "span".
Definition p_ := El "p".

Definition tip_item (s : string) : VNode :=
  div "tip-item" [ElIcon "tip-icon" None "CircleCheck"; span "" [Txt s]].

Definition bg_decoration : VNode :=
  div "bg-decoration" [div "circle circle-1" []; div "circle circle-2" []].

Definition warning_section : VNode :=
  div "warning-section"
    [div "warning-icon" [ElIcon "" (Some 48) "WarningFilled"];
     El "h2" "warning-title" [Txt "重要提醒"]].

Definition free_notice : VNode :=
  div "free-notice"
    [div "notice-card"
       [div "notice-icon" [ElIcon "" (Some 24) "InfoFilled"];
        div "notice-content"
          [p_ "notice-main"
             [Txt "本软件为 "; span "highlight" [Txt "完全免费"];
              Txt " 的开源软件"];
           p_ "notice-sub"
             [Txt "如果你是花钱购买的，那么 ";
              span "warning-text" [Txt "你被骗了！"]]]]].

Definition tips_section : VNode :=
  div "tips-section"
    [tip_item "本软件仅供学习交流使用";
     tip_item "请勿用于任何商业用途";
     tip_item "禁止倒卖，发现必究"].

Definition group_section : VNode :=
  div "group-section"
    [El "h3" "section-title"
       [ElIcon "" None "ChatDotRound"; span "" [Txt "加入交流群"]];
     div "qr-container"
       [Img "/交流群.png" "交流群二维码" "qr-image";
        p_ "qr-tip" [Txt "微信扫码加入交流群"]]].

Definition action_section : VNode :=
  div "action-section"
    [ElButton "primary" "large" "confirm-btn" Confirm
       [ElIcon "" None "Select"; span "" [Txt "我已知晓"]]].

Definition welcome_content : VNode :=
  div "welcome-content"
    [bg_decoration; warning_section; free_notice; tips_section;
     group_section; action_section].

(** A value bound to an attribute of [el-dialog]. *)
Inductive AttrValue : Type :=
| AStr (s : string)
| ABool (b : bool).

(** The [<el-dialog ...>] element as the template writes it: the value
    bound by [v-model], the write-back that [v-model] installs, the
    attributes that are spelled out (nothing else is configured), the
    listeners, and the default slot. *)
Record ElDialog : Type := mkElDialog {
  v_model : bool;
  on_update_modelValue : bool -> Trigger;
  attrs : list (string * AttrValue);
  on_closed : Trigger;
  default_slot : list VNode
}.

Definition attr (name : string) (d : ElDialog) : option AttrValue :=
  option_map snd
    (find (fun kv => String.eqb (fst kv) name) (attrs d)).

(** The render function of the template: reads [visible] and nothing
    else of the script's state. *)
Definition render : Setup ElDialog :=
  v <- get visible ;;
  ret {| v_model := v;
         on_update_modelValue := MirrorWrite;
         attrs := [("title", AStr "");
                   ("width", AStr "480px");
                   ("class", AStr "welcome-dialog");
                   ("close-on-click-modal", ABool false)];
         on_closed := Closed;
         default_slot := [welcome_content] |}.

End WelcomeDialog.

Import WelcomeDialog.

(** ** The host surface *)

Module Surface.

(** The two presentation states of the dialog. *)
Inductive Presentation : Type :=
| Shown
| Hidden.

(** Modelled from the spec: the modal surface [el-dialog] belongs to
    the UI framework, none of whose code is among the sources.  Of its
    behaviour the model keeps what section 4.1 (Rendering) says: the
    bound value [true] presents the full content of the slot, [false]
    presents nothing. *)
Definition show_content (d : ElDialog) : list VNode :=
  if v_model d then default_slot d else [].

(** Modelled from the spec: the state machine of section 4.1 has the
    two states above, and the state is [Shown] exactly while the bound
    value is [true]. *)
Definition state_of (d : ElDialog) : Presentation :=
  if v_model d then Shown else Hidden.

End Surface.

(** ** The owner *)

Module Owner.

(** Modelled from the spec: the parent that owns the visibility flag
    is another file of the repository, absent from the sources.
    Section 6 gives its reaction to the outbound notification: "the
    owner should set its visibility state to this value". *)
Definition on_update (flag : bool) (e : Emit) : bool := payload e.

End Owner.

(** ** Owner, component and surface together

    The application state the contract talks about: the owner's flag and
    every notification the component has sent so far.  Between the
    three, props go down and events go up, synchronously and one event
    at a time (section 5). *)

Record App : Type := mkApp {
  flag : bool;
  history : list Emit
}.

(** What can happen: the owner changes its flag on its own, or the host
    calls one of the entry points the template gave it. *)
Inductive Event : Type :=
| OwnerSet (v : bool)
| Fire (t : Trigger).

(** The instance as the owner drives it: [modelValue] is the flag, and
    the outbound channel starts empty for the piece of script that runs
    next. *)
Definition mount (a : App) : Instance :=
  {| props := {| modelValue := flag a |}; emitted := [] |}.

(** Run a piece of script and hand what it emitted to the owner, one
    notification after the other. *)
Definition deliver {A} (m : Setup A) (a : App) : App :=
  let out := emitted (exec m (mount a)) in
  {| flag := fold_left Owner.on_update out (flag a);
     history := history a ++ out |}.

(** Every event ends with the component rendering again against the
    props it now has. *)
Definition step (a : App) (ev : Event) : App :=
  match ev with
  | OwnerSet v => deliver render {| flag := v; history := history a |}
  | Fire t => deliver render (deliver (dispatch t) a)
  end.

Definition run (a : App) (evs : list Event) : App := fold_left step evs a.

(** The owner creates the flag with value [v]; the component renders
    for the first time. *)
Definition start (v : bool) : App :=
  deliver render {| flag := v; history := [] |}.

Definition rendered (a : App) : Surface.Presentation :=
  Surface.state_of (eval render (mount a)).

(** The value a trigger sends, and what an event adds to the history. *)
Definition sent (t : Trigger) : bool :=
  match t with
  | MirrorWrite val => val
  | Confirm | Closed => false
  end.

Definition outbox (ev : Event) : list Emit :=
  match ev with
  | OwnerSet _ => []
  | Fire t => [update_modelValue (sent t)]
  end.

(** A trigger asks for the dialog to be closed when the notification it
    sends carries [false]. *)
Definition asks_to_close (t : Trigger) : bool :=
  existsb (fun e => negb (payload e))
          (emitted (exec (dispatch t) {| props := {| modelValue := true |};
                                         emitted := [] |})).

(** ** What the surface does after a dismissal *)

(** Modelled from the spec: the close-completion hook is "invoked once
    a dismissal's visual transition has finished, independent of which
    gesture caused the dismissal" (glossary), and it "fires on ANY
    dismissal" (section 9).  [el-dialog] is framework code outside the
    sources: once a dialog that was shown has left the screen it emits
    [closed] and then writes [false] back through [v-model].  The model
    calls the two listeners the template installed, in that order, and
    calls nothing when no shown dialog was dismissed. *)
Definition after_change (was : Surface.Presentation) (d : ElDialog)
  : list Trigger :=
  match was, Surface.state_of d with
  | Surface.Shown, Surface.Hidden =>
      [on_closed d; on_update_modelValue d false]
  | _, _ => []
  end.

(** An event, followed by what the surface does once the component has
    rendered again. *)
Definition settle (a : App) (ev : Event) : App :=
  run (step a ev)
      (map Fire (after_change (rendered a)
                              (eval render (mount (step a ev))))).

(** ** Sequences of host calls, and what the template refers to *)

(** The host calls into the script one entry point after the other, on
    the same instance. *)
Definition fire_all (ts : list Trigger) (i : Instance) : Instance :=
  fold_left (fun j t => exec (dispatch t) j) ts i.

(** [import { WarningFilled, InfoFilled, CircleCheck, ChatDotRound,
    Select } from '@element-plus/icons-vue'] *)
Definition icon_imports : list string :=
  ["WarningFilled"; "InfoFilled"; "CircleCheck"; "ChatDotRound"; "Select"].

(** The [@click] listeners found in a piece of markup, in document
    order. *)
Fixpoint clicks (n : VNode) : list Trigger :=
  match n with
  | El _ _ children => flat_map clicks children
  | ElButton _ _ _ onClick children => onClick :: flat_map clicks children
  | Txt _ | ElIcon _ _ _ | Img _ _ _ => []
  end.

(** The icon components a piece of markup mentions, in document
    order. *)
Fixpoint icons (n : VNode) : list string :=
  match n with
  | El _ _ children => flat_map icons children
  | ElButton _ _ _ _ children => flat_map icons children
  | ElIcon _ _ icon => [icon]
  | Txt _ | Img _ _ _ => []
  end.

(** * Properties *)

Import Surface.

(** ** The script, function by function *)

Section Script.

Variable i : Instance.

Lemma emit_spec (e : Emit) :
  emit e i = (tt, {| props := props i; emitted := emitted i ++ [e] |}).
Proof. reflexivity. Qed.

Lemma dispatch_spec (t : Trigger) :
  dispatch t i =
  (tt, {| props := props i;
          emitted := emitted i ++ [update_modelValue (sent t)] |}).
Proof. destruct t; reflexivity. Qed.

Lemma render_pure : exec render i = i.
Proof. reflexivity. Qed.

Lemma render_v_model : v_model (eval render i) = modelValue (props i).
Proof. reflexivity. Qed.

End Script.

(** ** Steps and runs *)

Lemma step_history (a : App) (ev : Event) :
  history (step a ev) = history a ++ outbox ev.
Proof.
  destruct ev as [v | t]; cbn.
  - now rewrite !app_nil_r.
  - destruct t; cbn; now rewrite app_nil_r.
Qed.

Lemma step_flag (a : App) (ev : Event) :
  flag (step a ev) =
  match ev with OwnerSet v => v | Fire t => sent t end.
Proof. destruct ev as [v | []]; reflexivity. Qed.

Lemma run_history (evs : list Event) :
  forall a, history (run a evs) = history a ++ flat_map outbox evs.
Proof.
  induction evs as [| ev evs IH]; intros a; cbn.
  - now rewrite app_nil_r.
  - unfold run in IH. rewrite IH, step_history, <- app_assoc. reflexivity.
Qed.


Lemma rendered_flag (a : App) :
  rendered a = if flag a then Shown else Hidden.
Proof. reflexivity. Qed.

(** ** The contract *)

(** C1.  The computed [visible] mirrors the prop: reading it returns the
    current [modelValue] and leaves the instance as it was; writing [v]
    sends exactly one [update:modelValue] carrying [v] and changes
    nothing else, so a read after the write still returns the prop. *)
Theorem visible_mirrors_modelValue (i : Instance) (v : bool) :
  eval (get visible) i = modelValue (props i) /\
  exec (get visible) i = i /\
  exec (set visible v) i =
    {| props := props i; emitted := emitted i ++ [update_modelValue v] |} /\
  eval (get visible) (exec (set visible v) i) = modelValue (props i).
Proof. repeat split. Qed.

(** C2.  Whatever [modelValue] is and whatever was sent before,
    [handleConfirm] sends exactly one notification, and it carries
    [false]. *)
Theorem handleConfirm_emits_false (open : bool) (before : list Emit) :
  exec handleConfirm {| props := {| modelValue := open |};
                        emitted := before |} =
  {| props := {| modelValue := open |};
     emitted := before ++ [update_modelValue false] |}.
Proof. unfold exec, handleConfirm. now rewrite emit_spec. Qed.

(** C3.  Whatever [modelValue] is and whatever was sent before,
    [handleClosed] sends exactly one notification, and it carries
    [false]. *)
Theorem handleClosed_emits_false (open : bool) (before : list Emit) :
  exec handleClosed {| props := {| modelValue := open |};
                       emitted := before |} =
  {| props := {| modelValue := open |};
     emitted := before ++ [update_modelValue false] |}.
Proof. unfold exec, handleClosed. now rewrite emit_spec. Qed.

(** C4.  The dialog is [Shown] after the first render exactly when the
    owner created the flag as [true]; after any sequence of events the
    presentation is determined by the current flag; the surface presents
    the whole slot for [true] and nothing for [false]; and two instances
    with the same props render the same element, whatever they sent. *)
Theorem rendered_follows_open (v : bool) :
  (rendered (start v) = Shown <-> v = true) /\
  (forall evs, rendered (run (start v) evs) =
               if flag (run (start v) evs) then Shown else Hidden) /\
  (forall i, show_content (eval render i) =
             if modelValue (props i) then [welcome_content] else []) /\
  (forall i j, props i = props j -> eval render i = eval render j).
Proof.
  split; [| split; [| split]].
  - destruct v; cbn; split; congruence.
  - intros evs. apply rendered_flag.
  - intros [[[]] sent_i]; reflexivity.
  - intros [pi si] [pj sj]; cbn; intros ->; reflexivity.
Qed.



(** C6, as stated, fails: the write-back of [v-model] is a third path
    that asks for the dialog to be closed. *)
Lemma mirror_write_false_closes :
  asks_to_close (on_update_modelValue
                   (eval render (mount (start true))) false) = true /\
  ~ (forall t, asks_to_close t = true -> t = Confirm \/ t = Closed).
Proof.
  split; [reflexivity |].
  intros H. destruct (H (MirrorWrite false) eq_refl); discriminate.
Qed.

(** C6, amended.  The template sets [close-on-click-modal] to [false]
    and configures no other closing affordance of the surface; the paths
    that ask for the dialog to be closed are [handleConfirm],
    [handleClosed] and a write of [false] through [v-model]. *)
Theorem closing_paths (i : Instance) :
  attr "close-on-click-modal" (eval render i) = Some (ABool false) /\
  attr "close-on-press-escape" (eval render i) = None /\
  attr "show-close" (eval render i) = None /\
  attr "before-close" (eval render i) = None /\
  on_closed (eval render i) = Closed /\
  (forall t, asks_to_close t = true <->
             t = Confirm \/ t = Closed \/ t = MirrorWrite false).
Proof.
  repeat (split; [reflexivity |]).
  intros [[] | |]; cbn; split; intros H; auto;
    try discriminate; destruct H as [H | [H | H]]; congruence.
Qed.

(** C7, as stated, fails.  When the owner takes the flag from [true]
    to [false], the surface's calls after the dismissal run
    [handleClosed] and [visible.set], and the component sends [false]
    twice.  And a write of [true] to the mirror while the dialog is
    hidden makes the component the source of an open transition. *)
Lemma owner_dismissal_is_not_silent :
  history (settle (start true) (OwnerSet false)) =
    [update_modelValue false; update_modelValue false] /\
  ~ (forall a v, history (settle a (OwnerSet v)) = history a) /\
  flag (start false) = false /\
  rendered (step (start false) (Fire (MirrorWrite true))) = Shown /\
  ~ (forall a t, flag a = false -> flag (step a (Fire t)) = false).
Proof.
  split; [reflexivity |]. split; [| split; [reflexivity |
                                            split; [reflexivity |]]].
  - intros H. specialize (H (start true) false). discriminate H.
  - intros H. specialize (H (start false) (MirrorWrite true) eq_refl).
    discriminate H.
Qed.

(** C7, amended.  Reading the mirror and rendering leave the instance
    untouched, and the script reacts to a new prop value by rendering
    only, so the change itself sends nothing.  With the surface's calls
    counted, an owner change sends something exactly when it dismisses a
    shown dialog ([true] to [false]): then [false] is sent twice and the
    flag stays [false]; setting the flag to [true] after it was [false]
    shows the dialog and sends nothing.  Of the component's entry
    points, only a write of [true] to the mirror turns the flag to
    [true]: neither handler does. *)
Theorem owner_change_emits_only_on_dismissal (a : App) (v : bool) :
  (forall i, exec (get visible) i = i /\ exec render i = i) /\
  history (step a (OwnerSet v)) = history a /\
  history (settle a (OwnerSet v)) =
    history a ++
    (if flag a && negb v
     then [update_modelValue false; update_modelValue false]
     else []) /\
  history (settle {| flag := false; history := history a |}
                  (OwnerSet true)) = history a /\
  flag (settle a (OwnerSet v)) = v /\
  rendered (settle a (OwnerSet v)) = (if v then Shown else Hidden) /\
  (forall t, flag (step a (Fire t)) = true <-> t = MirrorWrite true).
Proof.
  split; [intros i; split; reflexivity |].
  split; [rewrite step_history; apply app_nil_r |].
  split; [| split; [cbn; now rewrite !app_nil_r | split; [| split]]].
  - unfold settle. rewrite run_history, step_history. cbn [outbox].
    rewrite app_nil_r. f_equal.
    destruct a as [[] h], v; reflexivity.
  - destruct a as [[] h], v; reflexivity.
  - destruct a as [[] h], v; reflexivity.
  - intros t. rewrite step_flag.
    destruct t as [[] | |]; cbn; split; congruence.
Qed.

(** C8.  After [handleConfirm] the flag is [false] and the dialog is
    [Hidden]; [handleClosed] then sends [false] once more, which leaves
    both as they are.  The owner's update is idempotent. *)
Theorem second_false_is_harmless (a : App) :
  history (run a [Fire Confirm; Fire Closed]) =
    history a ++ [update_modelValue false; update_modelValue false] /\
  flag (step a (Fire Confirm)) = false /\
  rendered (step a (Fire Confirm)) = Hidden /\
  flag (run a [Fire Confirm; Fire Closed]) = flag (step a (Fire Confirm)) /\
  rendered (run a [Fire Confirm; Fire Closed]) = Hidden /\
  (forall f e, Owner.on_update (Owner.on_update f e) e =
               Owner.on_update f e) /\
  Owner.on_update false (update_modelValue false) = false.
Proof.
  rewrite run_history. cbn. repeat split.
Qed.

(** C9.  A notification is [update:modelValue] with a boolean payload,
    and nothing else: every entry of every history has that shape. *)
Theorem payload_is_boolean (v : bool) (evs : list Event) :
  (forall e : Emit, exists b : bool,
      e = update_modelValue b /\ (b = true \/ b = false)) /\
  Forall (fun e => e = update_modelValue true \/ e = update_modelValue false)
         (history (run (start v) evs)).
Proof.
  assert (shape : forall e : Emit,
             e = update_modelValue true \/ e = update_modelValue false)
    by (intros [[]]; auto).
  split.
  - intros [b]. exists b. split; [reflexivity | destruct b; auto].
  - induction (history (run (start v) evs)); constructor; auto.
Qed.

(** C10.  [handleConfirm] and [handleClosed] are the same function:
    on every instance each sends exactly one [update:modelValue] that
    carries [false] and changes nothing else, which is what writing
    [false] to the mirror does; and on every application state the
    three have the same effect, one [false] added to the history. *)
Theorem dismissals_coincide (i : Instance) (a : App) :
  handleConfirm = handleClosed /\
  handleConfirm i = handleClosed i /\
  handleConfirm i = set visible false i /\
  handleClosed i = set visible false i /\
  handleConfirm i =
    (tt, {| props := props i;
            emitted := emitted i ++ [update_modelValue false] |}) /\
  handleClosed i =
    (tt, {| props := props i;
            emitted := emitted i ++ [update_modelValue false] |}) /\
  set visible false i =
    (tt, {| props := props i;
            emitted := emitted i ++ [update_modelValue false] |}) /\
  dispatch Confirm i = handleConfirm i /\
  dispatch Closed i = handleClosed i /\
  dispatch (MirrorWrite false) i = set visible false i /\
  step a (Fire Confirm) = step a (Fire Closed) /\
  step a (Fire Confirm) = step a (Fire (MirrorWrite false)) /\
  step a (Fire Confirm) =
    {| flag := false;
       history := history a ++ [update_modelValue false] |} /\
  step a (Fire Closed) =
    {| flag := false;
       history := history a ++ [update_modelValue false] |}.
Proof.
  assert (one : forall t, sent t = false ->
            step a (Fire t) =
            {| flag := false;
               history := history a ++ [update_modelValue false] |}).
  { intros t Ht. destruct a as [f h]. unfold step, deliver.
    cbn [mount flag history]. unfold exec. rewrite dispatch_spec, Ht.
    cbn. now rewrite app_nil_r. }
  repeat split; try (apply one; reflexivity).
Qed.

(** ** Beyond single calls *)

Lemma fire_all_app (ts us : list Trigger) (i : Instance) :
  fire_all (ts ++ us) i = fire_all us (fire_all ts i).
Proof. apply fold_left_app. Qed.

Lemma fire_all_spec (ts : list Trigger) :
  forall i,
    fire_all ts i =
    {| props := props i;
       emitted := emitted i ++ map (fun t => update_modelValue (sent t)) ts |}.
Proof.
  induction ts as [| t ts IH]; intros [p l]; cbn.
  - now rewrite app_nil_r.
  - specialize (IH (exec (dispatch t) {| props := p; emitted := l |})).
    unfold fire_all in IH. rewrite IH. unfold exec.
    rewrite dispatch_spec. cbn. now rewrite <- app_assoc.
Qed.

Lemma update_modelValue_inj_map (bs cs : list bool) :
  map update_modelValue bs = map update_modelValue cs -> bs = cs.
Proof.
  revert cs. induction bs as [| b bs IH]; intros [| c cs] H;
    try discriminate; [reflexivity |].
  cbn in H. injection H as -> H. f_equal. now apply IH.
Qed.

(** X1.  Whatever entry points the host calls, in whatever order, the
    props stay as the owner passed them, nothing sent earlier is lost or
    reordered, and the channel grows by exactly one notification per
    call, in call order. *)
Theorem fire_all_appends (ts : list Trigger) (i : Instance) :
  props (fire_all ts i) = props i /\
  firstn (List.length (emitted i)) (emitted (fire_all ts i)) = emitted i /\
  skipn (List.length (emitted i)) (emitted (fire_all ts i)) =
    map (fun t => update_modelValue (sent t)) ts /\
  List.length (emitted (fire_all ts i)) = List.length (emitted i) + List.length ts.
Proof.
  rewrite fire_all_spec. cbn [props emitted]. repeat split.
  - rewrite firstn_app, Nat.sub_diag, firstn_all. cbn. apply app_nil_r.
  - rewrite skipn_app, Nat.sub_diag, skipn_all. reflexivity.
  - now rewrite length_app, length_map.
Qed.

(** X2.  The component cannot change what it shows: after any sequence
    of its own actions [visible] reads the same value and the template
    renders the same element as before.  Only new props change it. *)
Theorem own_actions_do_not_change_render (ts : list Trigger) (i : Instance) :
  eval (get visible) (fire_all ts i) = eval (get visible) i /\
  eval render (fire_all ts i) = eval render i /\
  exec render (fire_all ts i) = fire_all ts (exec render i).
Proof.
  rewrite !render_pure, fire_all_spec. repeat split.
Qed.

(** X3.  The instance remembers the values that were sent and nothing
    about which entry point sent them: two sequences of calls leave the
    same instance exactly when they send the same values in the same
    order. *)
Theorem fire_all_eq_iff (ts us : list Trigger) (i : Instance) :
  fire_all ts i = fire_all us i <-> map sent ts = map sent us.
Proof.
  rewrite !fire_all_spec. split.
  - intros H. injection H as H. apply app_inv_head in H.
    rewrite <- !(map_map sent update_modelValue) in H.
    now apply update_modelValue_inj_map.
  - intros H. rewrite <- !(map_map sent update_modelValue), H. reflexivity.
Qed.

(** X4.  Whatever the props, the markup the template puts in the dialog
    has exactly one [@click] listener, and it is [handleConfirm]; so
    every click listener of the content sends one [false].  The
    [closed] event runs [handleClosed], the write-back of [v-model] runs
    [visible.set] with the value written, and [handleClosed] is the
    listener of nothing else. *)
Theorem only_click_is_confirm (i : Instance) :
  flat_map clicks (default_slot (eval render i)) = [Confirm] /\
  on_closed (eval render i) = Closed /\
  (forall val, on_update_modelValue (eval render i) val = MirrorWrite val) /\
  (forall val, on_update_modelValue (eval render i) val <> Closed) /\
  ~ In Closed (flat_map clicks (default_slot (eval render i))) /\
  Forall (fun t => forall j,
            exec (dispatch t) j =
            {| props := props j;
               emitted := emitted j ++ [update_modelValue false] |})
         (flat_map clicks (default_slot (eval render i))).
Proof.
  change (flat_map clicks (default_slot (eval render i))) with [Confirm].
  change (on_update_modelValue (eval render i)) with MirrorWrite.
  repeat split; try discriminate.
  - intros [H | []]. discriminate H.
  - constructor; [| constructor]. intros j. reflexivity.
Qed.

(** X5.  The icon components the template uses are the ones the script
    imports: none is used without being imported, and none is imported
    without being used. *)
Theorem icons_used_are_imported (i : Instance) (name : string) :
  In name (flat_map icons (default_slot (eval render i))) <->
  In name icon_imports.
Proof.
  cbn. split; intros H;
    repeat (destruct H as [<- | H]; [tauto |]); contradiction.
Qed.
